(** * The OpenAI provider of evosuite-providers

    A shallow embedding of [src/evosuite_providers/openai.py]: the class
    [OpenAIProvider] with its constructor and its five operations
    ([metadata], [validate_config], [generate], [activate], [deactivate]),
    followed by the properties the specification states about them.

    Python objects are mutable and Python code raises: a method is a
    computation over the instance ([self]) that ends in a value or in an
    exception and leaves an instance behind in both cases. The four [async]
    methods never suspend: a call below is an awaited call. *)

From Stdlib Require Import ZArith String Ascii Lia.
From Stdlib Require Import Floats.SpecFloat.
From stdpp Require Import base option list strings gmap pretty.

Local Open Scope string_scope.

(** ** Python values

    A configuration is a [Dict[str, Any]]. The values modelled are the
    scalars its [config_schema] declares ([string], [integer], [number])
    together with [None] and [bool]. A [float] is an IEEE 754 binary64
    number. One [ascii] of a [string] stands for one character of a [str]. *)

Inductive value : Type :=
  | VNone
  | VBool (b : bool)
  | VInt (n : Z)
  | VFloat (x : spec_float)
  | VStr (s : string).

(** [bool(v)]: the truth value Python's [not], [or] and [if] test. *)
Definition truthy (v : value) : bool :=
  match v with
  | VNone => false
  | VBool b => b
  | VInt n => negb (n =? 0)%Z
  | VFloat (S754_zero _) => false
  | VFloat _ => true
  | VStr "" => false
  | VStr _ => true
  end.

(** [a or b]: [a] when it is truthy, [b] otherwise. *)
Definition py_or (a b : value) : value :=
  if truthy a then a else b.

(** The exceptions this module raises or catches. *)
Inductive exception : Type :=
  | ValueError (msg : string)
  | TypeError (msg : string)
  | RuntimeError (msg : string)
  | ImportError (msg : string).

(** The two [except] clauses of the module. *)
Inductive except_clause : Type :=
  | ExceptException
  | ExceptImportError.

Definition caught_by (c : except_clause) (e : exception) : bool :=
  match c, e with
  | ExceptException, _ => true
  | ExceptImportError, ImportError _ => true
  | ExceptImportError, _ => false
  end.

(** [len(v)]: defined on a [str] only; the other values have no [__len__]. *)
Definition py_len (v : value) : exception + nat :=
  match v with
  | VStr s => inr (String.length s)
  | VNone => inl (TypeError "object of type 'NoneType' has no len()")
  | VBool _ => inl (TypeError "object of type 'bool' has no len()")
  | VInt _ => inl (TypeError "object of type 'int' has no len()")
  | VFloat _ => inl (TypeError "object of type 'float' has no len()")
  end.

(** [s[:n]]: the first [n] characters of [s], all of [s] when it is shorter. *)
Fixpoint str_slice_to (n : nat) (s : string) : string :=
  match n, s with
  | S n', String c s' => String c (str_slice_to n' s')
  | _, _ => ""
  end.

(** [d.get(k)] and [d.get(k, default)]. *)
Definition dict_get (d : gmap string value) (k : string) : value :=
  default VNone (d !! k).

Definition dict_get_default (d : gmap string value) (k : string) (dflt : value) : value :=
  default dflt (d !! k).

(** [os.getenv(name)] over the process environment. *)
Definition os_getenv (environ : gmap string string) (name : string) : value :=
  match environ !! name with
  | Some s => VStr s
  | None => VNone
  end.

(** The double nearest to [0.7]: [6305039478318694 * 2^-53]. *)
Definition float_0_7 : spec_float := S754_finite false 6305039478318694 (-53).

(** ** The instance *)

(** The object the commented-out line of [activate] would build:
    [openai.AsyncOpenAI(api_key=self.api_key, base_url=self.base_url)]. *)
Record AsyncOpenAI : Type := {
  client_api_key : value;
  client_base_url : value
}.

(** [bool(self._client)]: [None] is falsy; an [AsyncOpenAI] object defines
    neither [__bool__] nor [__len__] and is truthy. *)
Definition truthy_client (c : option AsyncOpenAI) : bool :=
  match c with
  | Some _ => true
  | None => false
  end.

Record OpenAIProvider : Type := {
  config : gmap string value;
  api_key : value;
  model : value;
  base_url : value;
  _client : option AsyncOpenAI
}.

(** Modelled from the spec: the constructor of [evosuite.plugins.Provider],
    the base class, which this repository imports and does not define. It
    accepts an optional configuration mapping and keeps it as [self.config],
    an absent one as the empty mapping. *)
Definition Provider_init (cfg : option (gmap string value)) : gmap string value :=
  default ∅ cfg.

Definition __init__ (environ : gmap string string) (cfg : option (gmap string value))
  : OpenAIProvider :=
  let config := Provider_init cfg in
  {| config := config;
     api_key := py_or (dict_get config "api_key") (os_getenv environ "OPENAI_API_KEY");
     model := dict_get_default config "model" (VStr "gpt-3.5-turbo");
     base_url := dict_get_default config "base_url" (VStr "https://api.openai.com/v1");
     _client := None |}.

(** ** Methods as computations over the instance *)

Definition M (A : Type) : Type :=
  OpenAIProvider -> (exception + A) * OpenAIProvider.

#[global] Instance M_ret : MRet M := λ A x self, (inr x, self).

#[global] Instance M_bind : MBind M := λ A B f m self,
  match m self with
  | (inr x, self') => f x self'
  | (inl e, self') => (inl e, self')
  end.

(** [self.f] *)
Definition getattr {A : Type} (f : OpenAIProvider -> A) : M A :=
  λ self, (inr (f self), self).

(** [self._client = c] *)
Definition set_client (c : option AsyncOpenAI) : M unit :=
  λ self, (inr tt, {| config := config self; api_key := api_key self;
                      model := model self; base_url := base_url self;
                      _client := c |}).

Definition raise {A : Type} (e : exception) : M A :=
  λ self, (inl e, self).

(** A pure call that may raise. *)
Definition lift {A : Type} (r : exception + A) : M A :=
  λ self, (r, self).

(** [try: body / except clause: handler] *)
Definition try_except {A : Type} (body : M A) (clause : except_clause)
    (handler : exception -> M A) : M A :=
  λ self,
  match body self with
  | (inl e, self') => if caught_by clause e then handler e self' else (inl e, self')
  | (inr x, self') => (inr x, self')
  end.

(** What a call returned or raised, and the instance it left. *)
Definition outcome {A : Type} (r : (exception + A) * OpenAIProvider) : exception + A := fst r.
Definition after {A : Type} (r : (exception + A) * OpenAIProvider) : OpenAIProvider := snd r.

(** ** The metadata descriptor *)

(** A literal of nested dicts, lists and scalars, as [config_schema] is
    written; a dict literal keeps the order of its items. *)
#[local] Set Warnings "-register-all".
Inductive literal : Type :=
  | LStr (s : string)
  | LInt (n : Z)
  | LFloat (x : spec_float)
  | LList (items : list literal)
  | LDict (items : list (string * literal)).

(** Modelled from the spec: the class [PluginMetadata] of [evosuite.plugins],
    which this repository imports and does not define: a record of the
    keyword arguments [metadata] passes to it. *)
Record PluginMetadata : Type := {
  name : string;
  version : string;
  description : string;
  author : string;
  provides : list string;
  requires_core : string;
  config_schema : literal
}.

Definition metadata : M PluginMetadata :=
  mret {|
    name := "openai_provider";
    version := "0.2.0";
    description := "OpenAI LLM provider for text generation";
    author := "EvoSuite Team";
    provides := ["provider.openai"; "provider.llm"];
    requires_core := ">=0.2,<0.3";
    config_schema := LDict [
      ("type", LStr "object");
      ("properties", LDict [
        ("api_key", LDict [("type", LStr "string"); ("description", LStr "OpenAI API key")]);
        ("model", LDict [("type", LStr "string"); ("default", LStr "gpt-3.5-turbo")]);
        ("base_url", LDict [("type", LStr "string"); ("default", LStr "https://api.openai.com/v1")]);
        ("max_tokens", LDict [("type", LStr "integer"); ("default", LInt 1000)]);
        ("temperature", LDict [("type", LStr "number"); ("default", LFloat float_0_7)])
      ]);
      ("required", LList [LStr "api_key"])
    ]
  |}.

(** ** The operations *)

Definition validate_config : M bool :=
  key ← getattr api_key;
  if negb (truthy key) then mret false
  else
    try_except
      (n ← lift (py_len key); mret (10 <? n)%nat)
      ExceptException
      (λ _, mret false).

Definition activate (context : gmap string value) : M unit :=
  try_except
    (mret tt)
    ExceptImportError
    (λ _, raise (RuntimeError "OpenAI package not installed. Run: pip install openai")).

Definition deactivate (context : gmap string value) : M unit :=
  client ← getattr _client;
  if truthy_client client then set_client None else mret tt.

Section Generate.

(** [str(x)] of a [float] [x] is CPython's shortest round-trip printer,
    which is not part of this repository: it is taken as given. *)
Variable float_repr : spec_float -> string.

(** [format(v, "")], what an f-string field [{v}] expands to. *)
Definition py_format (v : value) : string :=
  match v with
  | VNone => "None"
  | VBool true => "True"
  | VBool false => "False"
  | VInt n => pretty n
  | VFloat x => float_repr x
  | VStr s => s
  end.

Definition generate (prompt : string) (context : gmap string value) : M string :=
  valid ← validate_config;
  if negb valid then raise (ValueError "Invalid OpenAI configuration")
  else
    cfg ← getattr config;
    let max_tokens := dict_get_default cfg "max_tokens" (VInt 1000) in
    let temperature := dict_get_default cfg "temperature" (VFloat float_0_7) in
    mdl ← getattr model;
    mret ("[OpenAI " ++ py_format mdl ++ "] Generated response for prompt: "
          ++ str_slice_to 50 prompt ++ "...").

(** *** The host's view: a sequence of calls on one instance *)

Inductive call : Type :=
  | CallMetadata
  | CallValidateConfig
  | CallGenerate (prompt : string) (context : gmap string value)
  | CallActivate (context : gmap string value)
  | CallDeactivate (context : gmap string value).

(** The instance a call leaves, whether it returned or raised. *)
Definition step (self : OpenAIProvider) (c : call) : OpenAIProvider :=
  match c with
  | CallMetadata => after (metadata self)
  | CallValidateConfig => after (validate_config self)
  | CallGenerate prompt context => after (generate prompt context self)
  | CallActivate context => after (activate context self)
  | CallDeactivate context => after (deactivate context self)
  end.

Definition run_calls (self : OpenAIProvider) (cs : list call) : OpenAIProvider :=
  foldl step self cs.

(** Every instance the host sees along a sequence of calls, the first included. *)
Fixpoint visited (self : OpenAIProvider) (cs : list call) : list OpenAIProvider :=
  match cs with
  | [] => [self]
  | c :: cs' => self :: visited (step self c) cs'
  end.

End Generate.

(** [needle] occurs in [s]. *)
Definition contains (s needle : string) : Prop :=
  ∃ before rest, s = before ++ needle ++ rest.

Definition starts_with (s pre : string) : Prop :=
  ∃ rest, s = pre ++ rest.

(** The test [validate_config] comes down to, in closed form. *)
Definition long_key (key : value) : bool :=
  match key with
  | VStr s => (10 <? String.length s)%nat
  | _ => false
  end.

(** Two instances that agree on everything but the client handle. *)
Definition same_settings (a b : OpenAIProvider) : Prop :=
  config a = config b ∧ api_key a = api_key b ∧
  model a = model b ∧ base_url a = base_url b.

(** The resolved key as the specification words it: the configured value
    whenever the configuration has the key, the environment variable's
    value otherwise. *)
Definition api_key_config_first (environ : gmap string string)
    (cfg : option (gmap string value)) : value :=
  match Provider_init cfg !! "api_key" with
  | Some v => v
  | None => os_getenv environ "OPENAI_API_KEY"
  end.

(** ** Sample inputs *)

Definition sample_key : value := VStr "sk-1234567890abcdef".

Definition sample_config : gmap string value := {[ "api_key" := sample_key ]}.

Definition sample_environ : gmap string string :=
  {[ "OPENAI_API_KEY" := "sk-from-the-environment" ]}.

(** A configuration that supplies an empty key. *)
Definition empty_key_config : gmap string value := {[ "api_key" := VStr "" ]}.

(** A prompt of 60 characters. *)
Definition long_prompt : string :=
  "0123456789abcdefghij0123456789abcdefghij0123456789abcdefghij".

(** Two configurations with the same key and model and different
    [max_tokens] and [temperature]. *)
Definition few_tokens_config : gmap string value :=
  <["max_tokens" := VInt 5]> (<["temperature" := VFloat (S754_zero false)]> sample_config).

Definition warm_config : gmap string value :=
  <["max_tokens" := VInt 4000]> (<["temperature" := VFloat float_0_7]> sample_config).

(** A printer of floats for the sample runs, none of which prints a float. *)
Definition sample_float_repr : spec_float -> string := λ _, "nan".

(** ** Reading the schema

    How a host reads [config_schema]: [d[k]] on a dict literal, and
    [metadata.config_schema["properties"][option]["default"]]. *)

(** The value under key [k] of a list of items; the first match. *)
Fixpoint items_get (items : list (string * literal)) (k : string) : option literal :=
  match items with
  | [] => None
  | (k', v) :: rest => if String.eqb k' k then Some v else items_get rest k
  end.

Definition literal_get (l : literal) (k : string) : option literal :=
  match l with
  | LDict items => items_get items k
  | _ => None
  end.

(** A scalar literal as the value it denotes. *)
Definition literal_value (l : literal) : option value :=
  match l with
  | LStr s => Some (VStr s)
  | LInt n => Some (VInt n)
  | LFloat x => Some (VFloat x)
  | LList _ | LDict _ => None
  end.

Definition schema_default (md : PluginMetadata) (option_name : string) : option value :=
  props ← literal_get (config_schema md) "properties";
  entry ← literal_get props option_name;
  dflt ← literal_get entry "default";
  literal_value dflt.

(** The instance [deactivate] leaves: the same fields, no client handle. *)
Definition without_client (self : OpenAIProvider) : OpenAIProvider :=
  {| config := config self; api_key := api_key self; model := model self;
     base_url := base_url self; _client := None |}.


(** A configuration that sets [model] to [None]. *)
Definition none_model_config : gmap string value :=
  <["model" := VNone]> sample_config.

(** An instance that holds a client handle. *)
Definition connected_instance : OpenAIProvider :=
  {| config := sample_config; api_key := sample_key;
     model := VStr "gpt-3.5-turbo"; base_url := VStr "https://api.openai.com/v1";
     _client := Some {| client_api_key := sample_key;
                        client_base_url := VStr "https://api.openai.com/v1" |} |}.

(** * Properties *)

Local Open Scope nat_scope.

(** ** Strings *)

Lemma append_cons (x : ascii) (a b : string) : String x a ++ b = String x (a ++ b).
Proof. reflexivity. Qed.

Lemma append_assoc (a b c : string) : (a ++ b) ++ c = a ++ (b ++ c).
Proof.
  induction a as [ | x a IH]; [reflexivity | ].
  rewrite !append_cons. by rewrite IH.
Qed.

Lemma str_slice_to_length (n : nat) (s : string) :
  String.length (str_slice_to n s) = Nat.min n (String.length s).
Proof.
  revert s. induction n as [ | n IH]; intros [ | c s]; cbn; try reflexivity.
  by rewrite IH.
Qed.

(** [s[:n]] is a prefix of [s]. *)
Lemma str_slice_to_prefix (n : nat) (s : string) :
  ∃ rest, s = str_slice_to n s ++ rest.
Proof.
  revert s. induction n as [ | n IH]; intros [ | c s]; cbn [str_slice_to].
  1-3: eexists; reflexivity.
  destruct (IH s) as [rest Hrest]. exists rest.
  rewrite append_cons. by rewrite <- Hrest.
Qed.

(** ** How each operation runs *)

Ltac same_settings_refl := unfold same_settings; cbn; repeat split; auto.



Lemma metadata_after (self : OpenAIProvider) : after (metadata self) = self.
Proof. reflexivity. Qed.

Lemma validate_config_run (self : OpenAIProvider) :
  validate_config self = (inr (long_key (api_key self)), self).
Proof.
  unfold validate_config, getattr, try_except, lift, mbind, M_bind, mret, M_ret.
  destruct (api_key self) as [ | [] | n | [] | [ | c s] ]; cbn; try reflexivity.
  destruct (Z.eqb_spec n 0); reflexivity.
Qed.

Lemma activate_run (context : gmap string value) (self : OpenAIProvider) :
  activate context self = (inr tt, self).
Proof. reflexivity. Qed.

Lemma deactivate_absent (context : gmap string value) (self : OpenAIProvider) :
  _client self = None → deactivate context self = (inr tt, self).
Proof.
  intros Hc. unfold deactivate, getattr, mbind, M_bind. rewrite Hc. reflexivity.
Qed.

Lemma deactivate_run (context : gmap string value) (self : OpenAIProvider) :
  outcome (deactivate context self) = inr tt ∧
  _client (after (deactivate context self)) = None ∧
  same_settings (after (deactivate context self)) self.
Proof.
  destruct (_client self) as [h | ] eqn:Hc.
  - unfold deactivate, getattr, mbind, M_bind. rewrite Hc. same_settings_refl.
  - rewrite deactivate_absent by assumption. cbn. same_settings_refl.
Qed.

Section Properties.

Variable float_repr : spec_float -> string.

(** The string [generate] builds. *)
Let response (mdl : value) (prompt : string) : string :=
  "[OpenAI " ++ py_format float_repr mdl ++ "] Generated response for prompt: "
  ++ str_slice_to 50 prompt ++ "...".

Lemma generate_run (prompt : string) (context : gmap string value)
    (self : OpenAIProvider) :
  generate float_repr prompt context self =
    if long_key (api_key self)
    then (inr (response (model self) prompt), self)
    else (inl (ValueError "Invalid OpenAI configuration"), self).
Proof.
  unfold generate, mbind, M_bind. rewrite validate_config_run.
  destruct (long_key (api_key self)); reflexivity.
Qed.

Lemma step_client_absent (self : OpenAIProvider) (c : call) :
  _client self = None → _client (step float_repr self c) = None.
Proof.
  intros Hc. destruct c as [ | | p ctx | ctx | ctx ]; cbn [step].
  - exact Hc.
  - rewrite validate_config_run. exact Hc.
  - rewrite generate_run. destruct (long_key (api_key self)); exact Hc.
  - rewrite activate_run. exact Hc.
  - apply deactivate_run.
Qed.

Lemma step_same_settings (self : OpenAIProvider) (c : call) :
  same_settings (step float_repr self c) self.
Proof.
  destruct c as [ | | p ctx | ctx | ctx ]; cbn [step].
  - rewrite metadata_after. same_settings_refl.
  - rewrite validate_config_run. same_settings_refl.
  - rewrite generate_run. destruct (long_key (api_key self)); same_settings_refl.
  - rewrite activate_run. same_settings_refl.
  - apply deactivate_run.
Qed.

Lemma run_calls_same_settings (cs : list call) (self : OpenAIProvider) :
  same_settings (run_calls float_repr self cs) self.
Proof.
  revert self. induction cs as [ | c cs IH]; intros self; cbn.
  - same_settings_refl.
  - destruct (IH (step float_repr self c)) as (H1 & H2 & H3 & H4).
    destruct (step_same_settings self c) as (G1 & G2 & G3 & G4).
    unfold same_settings, run_calls in *. repeat split; congruence.
Qed.

Lemma visited_client_absent (cs : list call) (self : OpenAIProvider) :
  _client self = None →
  Forall (λ s, _client s = None) (visited float_repr self cs).
Proof.
  revert self. induction cs as [ | c cs IH]; intros self Hc; cbn.
  - constructor; [exact Hc | constructor].
  - constructor; [exact Hc | ]. apply IH, step_client_absent, Hc.
Qed.

Lemma run_calls_visited (cs : list call) (self : OpenAIProvider) :
  run_calls float_repr self cs ∈ visited float_repr self cs.
Proof.
  revert self. induction cs as [ | c cs IH]; intros self; cbn.
  - apply list_elem_of_here.
  - apply list_elem_of_further, IH.
Qed.

(** ** Validation *)

(** C1: [validate_config] always returns, leaves the instance as it was,
    and returns true if and only if the resolved [api_key] is a string of
    more than 10 characters: it returns false when the key is absent and
    when it is a string of at most 10 characters, and true when it is a
    string of more than 10 characters. *)
Theorem validate_config_iff_key_longer_than_10 (self : OpenAIProvider) :
  ∃ b : bool,
    validate_config self = (inr b, self) ∧
    (b = true ↔ ∃ k, api_key self = VStr k ∧ 10 < String.length k) ∧
    (api_key self = VNone → b = false) ∧
    (∀ k, api_key self = VStr k → String.length k ≤ 10 → b = false) ∧
    (∀ k, api_key self = VStr k → 10 < String.length k → b = true).
Proof.
  exists (long_key (api_key self)). split; [apply validate_config_run | ].
  destruct (api_key self) as [ | b | n | x | k] eqn:Hk; cbn [long_key].
  1-4: repeat split; try discriminate; try reflexivity;
    intros (k' & Heq & _); discriminate Heq.
  repeat split.
  - intros Hlt. exists k. split; [reflexivity | ]. apply Nat.ltb_lt, Hlt.
  - intros (k' & Heq & Hlt). injection Heq as <-. apply Nat.ltb_lt, Hlt.
  - discriminate.
  - intros k' Heq Hle. injection Heq as <-. apply Nat.ltb_ge, Hle.
  - intros k' Heq Hlt. injection Heq as <-. apply Nat.ltb_lt, Hlt.
Qed.

(** ** Generation *)

(** C2: for every prompt and context, [generate] raises exactly when
    [validate_config] returns false; what it raises then is the
    configuration-invalid error, it returns no result, and the instance
    (config, api_key, model, base_url, client handle) is as it was. *)
Theorem generate_raises_iff_config_invalid (prompt : string)
    (context : gmap string value) (self : OpenAIProvider) :
  ((∃ e, outcome (generate float_repr prompt context self) = inl e) ↔
     outcome (validate_config self) = inr false) ∧
  (outcome (validate_config self) = inr false →
     generate float_repr prompt context self =
       (inl (ValueError "Invalid OpenAI configuration"), self)).
Proof.
  rewrite generate_run, validate_config_run. cbn [outcome fst].
  destruct (long_key (api_key self)); cbn [outcome fst].
  - split; [split | ]; [intros [e He] | intros He | intros He]; discriminate He.
  - split; [split | ]; eauto.
Qed.

(** C3: on a configuration that validates, for every prompt and context
    [generate] returns a string that contains the configured model name
    and the first 50 characters of the prompt. *)
Theorem generate_contains_model_and_prompt (environ : gmap string string)
    (cfg : option (gmap string value)) (prompt : string)
    (context : gmap string value) :
  outcome (validate_config (__init__ environ cfg)) = inr true →
  ∃ out,
    outcome (generate float_repr prompt context (__init__ environ cfg)) = inr out ∧
    contains out (py_format float_repr (model (__init__ environ cfg))) ∧
    (∀ m, model (__init__ environ cfg) = VStr m → contains out m) ∧
    ∃ first50,
      starts_with prompt first50 ∧
      String.length first50 = Nat.min 50 (String.length prompt) ∧
      contains out first50.
Proof.
  generalize (__init__ environ cfg). intros self Hvalid.
  rewrite validate_config_run in Hvalid. cbn [outcome fst] in Hvalid.
  injection Hvalid as Hlong. rewrite generate_run, Hlong. cbn [outcome fst].
  eexists. split; [reflexivity | ]. unfold response. repeat split.
  - exists "[OpenAI ". eexists. reflexivity.
  - intros m ->. exists "[OpenAI ". eexists. reflexivity.
  - exists (str_slice_to 50 prompt).
    split; [apply str_slice_to_prefix | ].
    split; [apply str_slice_to_length | ].
    exists ("[OpenAI " ++ py_format float_repr (model self)
            ++ "] Generated response for prompt: "), "...".
    rewrite !append_assoc. reflexivity.
Qed.

(** C4: with the configuration [{api_key: "sk-1234567890abcdef"}] and the
    prompt ["Hello world"], whatever the context and the environment,
    [generate] returns a string that starts with
    ["[OpenAI gpt-3.5-turbo] Generated response for prompt: Hello world..."]. *)
Theorem generate_hello_world (environ : gmap string string)
    (context : gmap string value) :
  ∃ out,
    outcome (generate float_repr "Hello world" context
               (__init__ environ (Some sample_config))) = inr out ∧
    starts_with out
      "[OpenAI gpt-3.5-turbo] Generated response for prompt: Hello world...".
Proof.
  exists "[OpenAI gpt-3.5-turbo] Generated response for prompt: Hello world...".
  split; [ | exists ""; reflexivity].
  rewrite generate_run. reflexivity.
Qed.

(** ** Construction *)

(** C5, as amended: construction takes the key from the configuration when
    the configuration holds a truthy value for it (for a string: a
    non-empty one), and from the environment variable [OPENAI_API_KEY] in
    every other case: when the configuration has no such key and when the
    value it holds is falsy (the empty string, [None], [0], [False]); the
    resolved key is [None] when that variable is not set either. *)
Theorem api_key_resolution (environ : gmap string string)
    (cfg : option (gmap string value)) :
  (∀ v, Provider_init cfg !! "api_key" = Some v → truthy v = true →
        api_key (__init__ environ cfg) = v) ∧
  (∀ v, Provider_init cfg !! "api_key" = Some v → truthy v = false →
        api_key (__init__ environ cfg) = os_getenv environ "OPENAI_API_KEY") ∧
  (Provider_init cfg !! "api_key" = None →
        api_key (__init__ environ cfg) = os_getenv environ "OPENAI_API_KEY") ∧
  (environ !! "OPENAI_API_KEY" = None →
        os_getenv environ "OPENAI_API_KEY" = VNone).
Proof.
  cbn [__init__ api_key]. unfold py_or, dict_get, os_getenv. repeat split.
  - intros v -> Hv. cbn. by rewrite Hv.
  - intros v -> Hv. cbn. by rewrite Hv.
  - intros ->. reflexivity.
  - intros ->. reflexivity.
Qed.

(** ** Lifecycle *)

(** C6: [deactivate] on an instance without a client handle returns
    without raising and leaves the instance as it was; and on any instance
    a second [deactivate] right after a first one returns without raising
    and changes nothing more. *)
Theorem deactivate_idempotent (context context' : gmap string value)
    (self : OpenAIProvider) :
  (_client self = None → deactivate context self = (inr tt, self)) ∧
  outcome (deactivate context self) = inr tt ∧
  deactivate context' (after (deactivate context self)) =
    (inr tt, after (deactivate context self)).
Proof.
  split; [apply deactivate_absent | ].
  split; [apply deactivate_run | ].
  apply deactivate_absent, deactivate_run.
Qed.

(** C7: the client handle is absent in every instance the host can
    observe: at construction, and after each call of any sequence of
    [metadata], [validate_config], [generate], [activate] and [deactivate]
    calls; in particular after [activate] and after the [deactivate] that
    follows it. *)
Theorem client_never_populated (environ : gmap string string)
    (cfg : option (gmap string value)) (cs : list call) :
  Forall (λ s, _client s = None) (visited float_repr (__init__ environ cfg) cs) ∧
  _client (run_calls float_repr (__init__ environ cfg) cs) = None ∧
  (∀ context context',
     _client (after (activate context (__init__ environ cfg))) = None ∧
     _client (after (deactivate context'
                       (after (activate context (__init__ environ cfg))))) = None).
Proof.
  assert (Hall : Forall (λ s, _client s = None)
                   (visited float_repr (__init__ environ cfg) cs))
    by (apply visited_client_absent; reflexivity).
  split; [exact Hall | ]. split.
  - rewrite Forall_forall in Hall. apply Hall, run_calls_visited.
  - intros context context'. split; [reflexivity | apply deactivate_run].
Qed.

(** C8: on an instance whose configuration validates, [generate] succeeds,
    and it returns the same string after any sequence of calls on the
    instance ([activate] and [deactivate] among them) as it does with no
    call before it. *)
Theorem generate_regardless_of_activation (self : OpenAIProvider)
    (cs : list call) (prompt : string) (context : gmap string value) :
  outcome (validate_config self) = inr true →
  ∃ out,
    outcome (generate float_repr prompt context self) = inr out ∧
    outcome (generate float_repr prompt context (run_calls float_repr self cs))
      = inr out.
Proof.
  intros Hvalid. rewrite validate_config_run in Hvalid. cbn [outcome fst] in Hvalid.
  injection Hvalid as Hlong.
  destruct (run_calls_same_settings cs self) as (_ & Hkey & Hmodel & _).
  rewrite !generate_run, Hkey, Hmodel, Hlong. cbn [outcome fst]. eauto.
Qed.

(** C9: [activate] does nothing: for every instance and context it returns
    without raising and leaves every field of the instance as it was. *)
Theorem activate_is_noop (context : gmap string value) (self : OpenAIProvider) :
  activate context self = (inr tt, self) ∧
  (∀ e, outcome (activate context self) ≠ inl e).
Proof.
  split; [reflexivity | ]. intros e He. discriminate He.
Qed.

(** C10: the string [generate] returns depends on the model and the prompt
    alone: two calls with the same prompt on instances with the same model
    that both return, return the same string, whatever the two contexts
    and whatever the two configurations hold for [max_tokens] and
    [temperature]. *)
Theorem generate_output_from_model_and_prompt (self self' : OpenAIProvider)
    (prompt : string) (context context' : gmap string value)
    (out out' : string) :
  model self = model self' →
  outcome (generate float_repr prompt context self) = inr out →
  outcome (generate float_repr prompt context' self') = inr out' →
  out = out'.
Proof.
  intros Hmodel. rewrite !generate_run, Hmodel.
  destruct (long_key (api_key self)), (long_key (api_key self'));
    cbn [outcome fst]; intros H H'; try discriminate.
  injection H as <-. injection H' as <-. reflexivity.
Qed.

End Properties.


(** ** Concrete runs *)

(** The empty configuration with no environment variable set:
    [validate_config] returns false and [generate] raises. *)
Example empty_configuration_is_invalid :
  outcome (validate_config (__init__ ∅ (Some ∅))) = inr false ∧
  outcome (generate sample_float_repr "Hello world" ∅ (__init__ ∅ (Some ∅))) =
    inl (ValueError "Invalid OpenAI configuration").
Proof. split; reflexivity. Qed.

(** A key that is not a string has no length: the [TypeError] of [len] is
    swallowed and the answer is false. *)
Example integer_key_is_invalid :
  outcome (validate_config
             (__init__ ∅ (Some {[ "api_key" := VInt 12345678901 ]}))) = inr false.
Proof. reflexivity. Qed.

(** The key of the environment is used when the configuration has none. *)
Example key_from_environment :
  api_key (__init__ sample_environ None) = VStr "sk-from-the-environment" ∧
  outcome (validate_config (__init__ sample_environ None)) = inr true.
Proof. split; reflexivity. Qed.

(** C5, as stated, fails: a configuration that supplies the empty string as
    its [api_key] is not given that value back; the key of the environment
    replaces it, and the instance then validates. *)
Lemma api_key_config_first_fails :
  empty_key_config !! "api_key" = Some (VStr "") ∧
  api_key_config_first sample_environ (Some empty_key_config) = VStr "" ∧
  api_key (__init__ sample_environ (Some empty_key_config)) =
    VStr "sk-from-the-environment" ∧
  api_key (__init__ sample_environ (Some empty_key_config)) ≠
    api_key_config_first sample_environ (Some empty_key_config) ∧
  outcome (validate_config (__init__ sample_environ (Some empty_key_config))) =
    inr true.
Proof.
  repeat split; try reflexivity. intros H. vm_compute in H. discriminate H.
Qed.

Lemma generate_contains_model_and_prompt_witness :
  outcome (validate_config (__init__ ∅ (Some sample_config))) = inr true ∧
  ∃ out,
    outcome (generate sample_float_repr long_prompt ∅
               (__init__ ∅ (Some sample_config))) = inr out ∧
    contains out (py_format sample_float_repr (model (__init__ ∅ (Some sample_config)))) ∧
    (∀ m, model (__init__ ∅ (Some sample_config)) = VStr m → contains out m) ∧
    ∃ first50,
      starts_with long_prompt first50 ∧
      String.length first50 = Nat.min 50 (String.length long_prompt) ∧
      contains out first50.
Proof.
  split; [reflexivity | ].
  apply (generate_contains_model_and_prompt sample_float_repr ∅
           (Some sample_config) long_prompt ∅).
  reflexivity.
Defined.

Lemma generate_regardless_of_activation_witness :
  outcome (validate_config (__init__ ∅ (Some sample_config))) = inr true ∧
  ∃ out,
    outcome (generate sample_float_repr "Hello world" ∅
               (__init__ ∅ (Some sample_config))) = inr out ∧
    outcome (generate sample_float_repr "Hello world" ∅
               (run_calls sample_float_repr (__init__ ∅ (Some sample_config))
                  [CallActivate ∅; CallDeactivate ∅])) = inr out.
Proof.
  split; [reflexivity | ].
  apply (generate_regardless_of_activation sample_float_repr
           (__init__ ∅ (Some sample_config))
           [CallActivate ∅; CallDeactivate ∅] "Hello world" ∅).
  reflexivity.
Defined.

Lemma generate_output_from_model_and_prompt_witness :
  model (__init__ ∅ (Some few_tokens_config)) = model (__init__ ∅ (Some warm_config)) ∧
  outcome (generate sample_float_repr "Hello world" ∅
             (__init__ ∅ (Some few_tokens_config))) =
    inr "[OpenAI gpt-3.5-turbo] Generated response for prompt: Hello world..." ∧
  outcome (generate sample_float_repr "Hello world" {[ "user" := VStr "ada" ]}
             (__init__ ∅ (Some warm_config))) =
    inr "[OpenAI gpt-3.5-turbo] Generated response for prompt: Hello world..." ∧
  "[OpenAI gpt-3.5-turbo] Generated response for prompt: Hello world..." =
    "[OpenAI gpt-3.5-turbo] Generated response for prompt: Hello world...".
Proof.
  do 3 (split; [reflexivity | ]).
  apply (generate_output_from_model_and_prompt sample_float_repr
           (__init__ ∅ (Some few_tokens_config)) (__init__ ∅ (Some warm_config))
           "Hello world" ∅ {[ "user" := VStr "ada" ]}); reflexivity.
Defined.

(** * Further properties of the code *)

(** ** More on strings *)

Lemma length_append (a b : string) :
  String.length (a ++ b) = String.length a + String.length b.
Proof.
  induction a as [ | x a IH]; [reflexivity | ].
  rewrite append_cons. cbn [String.length]. by rewrite IH.
Qed.

(** [s[:n]] is all of [s] when [s] has at most [n] characters. *)
Lemma str_slice_to_all (n : nat) (s : string) :
  String.length s ≤ n → str_slice_to n s = s.
Proof.
  revert s. induction n as [ | n IH]; intros [ | c s]; cbn; intros Hlen;
    try reflexivity; [lia | ].
  rewrite IH by lia. reflexivity.
Qed.

Lemma append_inj_r (a b c : string) : a ++ c = b ++ c → a = b.
Proof.
  revert b. induction a as [ | x a IH]; intros [ | y b] Heq.
  - reflexivity.
  - apply (f_equal String.length) in Heq.
    rewrite !length_append in Heq. cbn [String.length] in Heq. lia.
  - apply (f_equal String.length) in Heq.
    rewrite !length_append in Heq. cbn [String.length] in Heq. lia.
  - rewrite !append_cons in Heq. injection Heq as -> Heq.
    by rewrite (IH b Heq).
Qed.


Lemma long_key_truthy (v : value) : long_key v = true → truthy v = true.
Proof.
  destruct v as [ | b | n | x | [ | c k]]; cbn; try discriminate; reflexivity.
Qed.

Lemma deactivate_without_client (context : gmap string value) (self : OpenAIProvider) :
  deactivate context self = (inr tt, without_client self) ∨
  (_client self = None ∧ deactivate context self = (inr tt, self)).
Proof.
  destruct (_client self) as [h | ] eqn:Hc.
  - left. unfold deactivate, getattr, mbind, M_bind. rewrite Hc. reflexivity.
  - right. split; [reflexivity | by apply deactivate_absent].
Qed.

Section FurtherProperties.

Variable float_repr : spec_float -> string.

Lemma step_fixed (self : OpenAIProvider) (c : call) :
  _client self = None → step float_repr self c = self.
Proof.
  intros Hc. destruct c as [ | | p ctx | ctx | ctx ]; cbn [step].
  - reflexivity.
  - by rewrite validate_config_run.
  - rewrite generate_run. by destruct (long_key (api_key self)).
  - reflexivity.
  - by rewrite deactivate_absent.
Qed.

Lemma run_calls_fixed (cs : list call) (self : OpenAIProvider) :
  _client self = None → run_calls float_repr self cs = self.
Proof.
  intros Hc. induction cs as [ | c cs IH]; [reflexivity | ].
  unfold run_calls in *. cbn [foldl]. by rewrite step_fixed.
Qed.

(** ** Construction followed by validation *)



(** ** Construction followed by generation *)

(** X3: [model] is taken from the configuration by presence, not by
    truthiness: on a provider that validates, [generate] prints whatever
    value the configuration holds under [model], a falsy one such as [None]
    or the empty string included, and prints the default ["gpt-3.5-turbo"]
    only when the configuration has no such key. *)
Theorem configured_model_is_printed_as_given (environ : gmap string string)
    (cfg : option (gmap string value)) (prompt : string)
    (context : gmap string value) :
  outcome (validate_config (__init__ environ cfg)) = inr true →
  (∀ v, Provider_init cfg !! "model" = Some v →
     outcome (generate float_repr prompt context (__init__ environ cfg)) =
       inr ("[OpenAI " ++ py_format float_repr v
            ++ "] Generated response for prompt: "
            ++ str_slice_to 50 prompt ++ "...")) ∧
  (Provider_init cfg !! "model" = None →
     outcome (generate float_repr prompt context (__init__ environ cfg)) =
       inr ("[OpenAI gpt-3.5-turbo] Generated response for prompt: "
            ++ str_slice_to 50 prompt ++ "...")).
Proof.
  assert (Hmodel : model (__init__ environ cfg) =
            dict_get_default (Provider_init cfg) "model" (VStr "gpt-3.5-turbo"))
    by reflexivity.
  revert Hmodel. generalize (__init__ environ cfg). intros self Hmodel Hvalid.
  rewrite validate_config_run in Hvalid.
  cbn [outcome fst] in Hvalid. injection Hvalid as Hlong.
  rewrite generate_run, Hlong, Hmodel. cbn [outcome fst].
  unfold dict_get_default. split.
  - intros v ->. reflexivity.
  - intros ->. reflexivity.
Qed.

(** ** The shape of the generated string *)

(** X4: whenever [generate] returns, the string it returns has 44
    characters more than the printed model and the echoed part of the prompt
    together, and the echoed part has at most 50 characters. *)
Theorem generate_length (self : OpenAIProvider) (prompt : string)
    (context : gmap string value) (out : string) :
  outcome (generate float_repr prompt context self) = inr out →
  String.length out =
    44 + String.length (py_format float_repr (model self))
       + Nat.min 50 (String.length prompt).
Proof.
  rewrite generate_run. destruct (long_key (api_key self)); [ | discriminate].
  cbn [outcome fst]. intros Heq. apply (inj inr) in Heq. subst out.
  rewrite !length_append, str_slice_to_length. cbn [String.length]. lia.
Qed.

(** X5: a prompt of at most 50 characters is echoed whole, and the three
    dots follow it all the same. *)
Theorem generate_echoes_short_prompt (self : OpenAIProvider) (prompt : string)
    (context : gmap string value) :
  outcome (validate_config self) = inr true →
  String.length prompt ≤ 50 →
  outcome (generate float_repr prompt context self) =
    inr ("[OpenAI " ++ py_format float_repr (model self)
         ++ "] Generated response for prompt: " ++ prompt ++ "...").
Proof.
  intros Hvalid Hlen. rewrite validate_config_run in Hvalid.
  cbn [outcome fst] in Hvalid. injection Hvalid as Hlong.
  rewrite generate_run, Hlong, str_slice_to_all by exact Hlen. reflexivity.
Qed.

(** X6: on a provider that validates, two prompts get the same answer if
    and only if they agree on their first 50 characters, whatever the two
    contexts. *)
Theorem generate_same_iff_same_first_50 (self : OpenAIProvider)
    (prompt prompt' : string) (context context' : gmap string value) :
  outcome (validate_config self) = inr true →
  outcome (generate float_repr prompt context self) =
    outcome (generate float_repr prompt' context' self) ↔
  str_slice_to 50 prompt = str_slice_to 50 prompt'.
Proof.
  intros Hvalid. rewrite validate_config_run in Hvalid.
  cbn [outcome fst] in Hvalid. injection Hvalid as Hlong.
  rewrite !generate_run, Hlong. cbn [outcome fst]. split.
  - intros Heq. apply (inj inr) in Heq. do 3 apply String.app_inj in Heq.
    exact (append_inj_r _ _ _ Heq).
  - intros ->. reflexivity.
Qed.

(** ** Lifecycle *)

(** X7: [deactivate] never raises, and the instance it leaves has no client
    handle and the same [config], [api_key], [model] and [base_url], whether
    or not there was a handle to release. *)
Theorem deactivate_releases_client (context : gmap string value)
    (self : OpenAIProvider) :
  outcome (deactivate context self) = inr tt ∧
  after (deactivate context self) = without_client self.
Proof.
  destruct (deactivate_without_client context self) as [-> | [Hc ->]].
  - split; reflexivity.
  - split; [reflexivity | ]. cbn [after snd].
    destruct self as [c k m u cl]. cbn in Hc. subst cl. reflexivity.
Qed.

(** X8: a constructed provider is never changed by its own operations:
    after any sequence of [metadata], [validate_config], [generate],
    [activate] and [deactivate] calls, returned or raised, the instance is
    the one construction built, in every field. *)
Theorem constructed_instance_never_changes (environ : gmap string string)
    (cfg : option (gmap string value)) (cs : list call) :
  run_calls float_repr (__init__ environ cfg) cs = __init__ environ cfg.
Proof. apply run_calls_fixed. reflexivity. Qed.

(** ** The descriptor *)

(** X10: [metadata] returns a descriptor without raising and without
    touching the instance, and the defaults its [config_schema] declares for
    [model] and [base_url] are the values construction gives these fields
    when the configuration leaves them out; it declares no default for
    [api_key]. *)
Theorem schema_defaults_match_construction (self : OpenAIProvider)
    (environ : gmap string string) (cfg : option (gmap string value)) :
  ∃ md,
    metadata self = (inr md, self) ∧
    (Provider_init cfg !! "model" = None →
       schema_default md "model" = Some (model (__init__ environ cfg))) ∧
    (Provider_init cfg !! "base_url" = None →
       schema_default md "base_url" = Some (base_url (__init__ environ cfg))) ∧
    schema_default md "api_key" = None.
Proof.
  eexists. split; [reflexivity | ].
  cbn [__init__ model base_url]. unfold dict_get_default. repeat split.
  - intros ->. reflexivity.
  - intros ->. reflexivity.
Qed.

End FurtherProperties.

(** ** Concrete runs of the further properties *)


Lemma configured_model_is_printed_as_given_witness :
  outcome (validate_config (__init__ ∅ (Some none_model_config))) = inr true ∧
  Provider_init (Some none_model_config) !! "model" = Some VNone ∧
  outcome (generate sample_float_repr "Hello world" ∅
             (__init__ ∅ (Some none_model_config))) =
    inr "[OpenAI None] Generated response for prompt: Hello world...".
Proof.
  split; [reflexivity | ]. split; [reflexivity | ].
  exact (proj1 (configured_model_is_printed_as_given sample_float_repr ∅
                  (Some none_model_config) "Hello world" ∅ eq_refl)
           VNone eq_refl).
Defined.

Lemma generate_length_witness :
  outcome (generate sample_float_repr long_prompt ∅
             (__init__ ∅ (Some sample_config))) =
    inr "[OpenAI gpt-3.5-turbo] Generated response for prompt: 0123456789abcdefghij0123456789abcdefghij0123456789..." ∧
  String.length
    "[OpenAI gpt-3.5-turbo] Generated response for prompt: 0123456789abcdefghij0123456789abcdefghij0123456789..." =
    44 + String.length
           (py_format sample_float_repr (model (__init__ ∅ (Some sample_config))))
       + Nat.min 50 (String.length long_prompt).
Proof.
  split; [reflexivity | ].
  exact (generate_length sample_float_repr (__init__ ∅ (Some sample_config))
           long_prompt ∅ _ eq_refl).
Defined.

Lemma generate_echoes_short_prompt_witness :
  outcome (validate_config (__init__ ∅ (Some sample_config))) = inr true ∧
  String.length "Hello world" ≤ 50 ∧
  outcome (generate sample_float_repr "Hello world" ∅
             (__init__ ∅ (Some sample_config))) =
    inr ("[OpenAI "
         ++ py_format sample_float_repr (model (__init__ ∅ (Some sample_config)))
         ++ "] Generated response for prompt: " ++ "Hello world" ++ "...").
Proof.
  assert (Hlen : String.length "Hello world" ≤ 50) by (cbn; lia).
  split; [reflexivity | ]. split; [exact Hlen | ].
  exact (generate_echoes_short_prompt sample_float_repr
           (__init__ ∅ (Some sample_config)) "Hello world" ∅ eq_refl Hlen).
Defined.

Lemma generate_same_iff_same_first_50_witness :
  outcome (validate_config (__init__ ∅ (Some sample_config))) = inr true ∧
  (outcome (generate sample_float_repr long_prompt ∅
              (__init__ ∅ (Some sample_config))) =
     outcome (generate sample_float_repr (long_prompt ++ " and more")
                {[ "user" := VStr "ada" ]} (__init__ ∅ (Some sample_config))) ↔
   str_slice_to 50 long_prompt = str_slice_to 50 (long_prompt ++ " and more")).
Proof.
  split; [reflexivity | ].
  exact (generate_same_iff_same_first_50 sample_float_repr
           (__init__ ∅ (Some sample_config)) long_prompt (long_prompt ++ " and more")
           ∅ {[ "user" := VStr "ada" ]} eq_refl).
Defined.

(** A handle, once present, is released: the instance [deactivate] leaves
    has none. *)
Example deactivate_connected_instance :
  after (deactivate ∅ connected_instance) = without_client connected_instance ∧
  _client connected_instance ≠ None ∧
  _client (after (deactivate ∅ connected_instance)) = None.
Proof. split; [reflexivity | ]. split; [discriminate | reflexivity]. Qed.
